(** * The packaging manifest of vgpu_unlock (setup.py)

    [setup.py] is one import and one call:
    [setup(name=..., version=..., description=..., author=...,
           packages=find_packages(), scripts=[...], install_requires=[...],
           classifiers=[...])].

    The embedding follows Python's evaluation of that call.  Keyword
    arguments are evaluated left to right; a [str] literal is an immutable
    value, a list display allocates a fresh list object, [find_packages()]
    reads the project tree and returns a fresh list, and finally [setup]
    is called with references to those objects.  [setup] and
    [find_packages] come from setuptools, not from this repository: the
    discovery routine is a parameter, and [setup] is modelled by the
    record of what it was called with. *)

From Stdlib Require Import String Ascii List Bool Arith Lia.
Import ListNotations.
Local Open Scope string_scope.
Local Open Scope list_scope.

(** ** Python objects *)

(** What a consumer reads out of a keyword argument: a string, or a list of
    strings (every list of this manifest holds [str] items only). *)
Inductive value : Type :=
| VStr (s : string)
| VList (items : list string).

Definition addr := nat.

(** What is passed around: a string by value, a list by the address of
    its object. *)
Inductive pyref : Type :=
| RStr (s : string)
| RList (a : addr).

(** The store of list objects; an address is a position in it. *)
Definition heap := list (list string).

(** Keyword arguments in the order they are written. *)
Definition kwargs (A : Type) := list (string * A).

Fixpoint kw_get {A : Type} (k : string) (kw : kwargs A) : option A :=
  match kw with
  | [] => None
  | (k', v) :: rest => if String.eqb k k' then Some v else kw_get k rest
  end.

Definition kw_names {A : Type} (kw : kwargs A) : list string := map fst kw.

Definition deref (h : heap) (r : pyref) : option value :=
  match r with
  | RStr s => Some (VStr s)
  | RList a => option_map VList (nth_error h a)
  end.

Fixpoint read_kwargs (h : heap) (kw : kwargs pyref) : option (kwargs value) :=
  match kw with
  | [] => Some []
  | (k, r) :: rest =>
      match deref h r, read_kwargs h rest with
      | Some v, Some vs => Some ((k, v) :: vs)
      | _, _ => None
      end
  end.

(** ** Evaluation of the module *)

Section Manifest.

(** The project tree at the time the manifest is evaluated, and setuptools'
    discovery routine called with its default arguments. *)
Variable FS : Type.
Variable find_packages : FS -> list string.

Record world : Type := mkWorld {
  tree : FS;
  objects : heap;
  setup_calls : list (kwargs pyref)
}.

Definition Py (A : Type) : Type := world -> A * world.

Definition ret {A : Type} (a : A) : Py A := fun w => (a, w).

Definition bind {A B : Type} (m : Py A) (f : A -> Py B) : Py B :=
  fun w => let (a, w') := m w in f a w'.

Notation "x <- m ;; k" := (bind m (fun x => k))
  (at level 61, m at next level, right associativity).

(** A list display [[s1, ..., sn]]: a fresh object at the next address. *)
Definition new_list (items : list string) : Py pyref :=
  fun w => (RList (length (objects w)),
            mkWorld (tree w) (objects w ++ [items]) (setup_calls w)).

(** [find_packages()]: the packages found in the tree, as a fresh list. *)
Definition call_find_packages : Py pyref :=
  fun w => new_list (find_packages (tree w)) w.

(** The call of [setup] with keyword arguments [kw]: it is recorded with
    the references it received. *)
Definition setup (kw : kwargs pyref) : Py unit :=
  fun w => (tt, mkWorld (tree w) (objects w) (setup_calls w ++ [kw])).

(** The keyword arguments of the call, evaluated left to right. *)
Definition setup_args : Py (kwargs pyref) :=
  let name := RStr "vgpu_unlock" in
  let version := RStr "1.0.0" in
  let description := RStr "vGPU unlock script for consumer GPUs" in
  let author := RStr "D" in
  packages <- call_find_packages ;;
  scripts <- new_list ["scripts/vgpu-name.sh"] ;;
  install_requires <- new_list ["frida"] ;;
  classifiers <- new_list [
      "License :: OSI Approved :: MIT License";
      "Programming Language :: Python :: 3";
      "Programming Language :: Python :: 3.9";
      "Programming Language :: Python :: 3.10";
      "Programming Language :: Python :: 3.11"
    ] ;;
  ret [ ("name", name);
        ("version", version);
        ("description", description);
        ("author", author);
        ("packages", packages);
        ("scripts", scripts);
        ("install_requires", install_requires);
        ("classifiers", classifiers) ].

(** The module body: the one [setup(...)] statement. *)
Definition setup_py : Py unit :=
  kw <- setup_args ;;
  setup kw.

(** Evaluating the module on a tree [fs], in an interpreter whose store
    already holds [h0], with no call to [setup] made yet. *)
Definition start (fs : FS) (h0 : heap) : world := mkWorld fs h0 [].

Definition run (fs : FS) (h0 : heap) : world := snd (setup_py (start fs h0)).

(** The moment all arguments are built and the call is about to be made. *)
Definition at_call (fs : FS) (h0 : heap) : world :=
  snd (setup_args (start fs h0)).

(** What each recorded call of [setup] received, read in the store [w]. *)
Definition received_in (w : world) : list (option (kwargs value)) :=
  map (read_kwargs (objects w)) (setup_calls w).

Definition received (fs : FS) (h0 : heap) : list (option (kwargs value)) :=
  received_in (run fs h0).

(** The same arguments written as values, for a given discovery result. *)
Definition setup_kwargs (fs : FS) : kwargs value :=
  [ ("name", VStr "vgpu_unlock");
    ("version", VStr "1.0.0");
    ("description", VStr "vGPU unlock script for consumer GPUs");
    ("author", VStr "D");
    ("packages", VList (find_packages fs));
    ("scripts", VList ["scripts/vgpu-name.sh"]);
    ("install_requires", VList ["frida"]);
    ("classifiers", VList [
        "License :: OSI Approved :: MIT License";
        "Programming Language :: Python :: 3";
        "Programming Language :: Python :: 3.9";
        "Programming Language :: Python :: 3.10";
        "Programming Language :: Python :: 3.11"
      ]) ].

(** A computation leaves every object that already exists as it is. *)
Definition preserves_objects {A : Type} (m : Py A) : Prop :=
  forall w a o,
    nth_error (objects w) a = Some o ->
    nth_error (objects (snd (m w))) a = Some o.

End Manifest.

Arguments mkWorld {FS}.
Arguments tree {FS}.
Arguments objects {FS}.
Arguments setup_calls {FS}.
Arguments ret {FS A}.
Arguments bind {FS A B}.
Arguments new_list {FS}.
Arguments call_find_packages {FS}.
Arguments setup {FS}.
Arguments setup_args {FS}.
Arguments setup_py {FS}.
Arguments start {FS}.
Arguments run {FS}.
Arguments at_call {FS}.
Arguments received_in {FS}.
Arguments received {FS}.
Arguments setup_kwargs {FS}.
Arguments preserves_objects {FS A}.

(** ** Several evaluations in one interpreter *)

(** The addresses of the list objects among the arguments of a call, in
    keyword order. *)
Definition list_addrs (kw : kwargs pyref) : list addr :=
  flat_map (fun kr => match snd kr with
                      | RList a => [a]
                      | RStr _ => []
                      end) kw.

(** The project tree as somebody left it before the next evaluation. *)
Definition set_tree {FS : Type} (fs : FS) : world FS -> unit * world FS :=
  fun w => (tt, mkWorld fs (objects w) (setup_calls w)).

(** The module evaluated once per tree of [trees], one after the other in
    the same interpreter, each time on the tree of that moment. *)
Fixpoint evaluations {FS : Type} (find_packages : FS -> list string)
    (trees : list FS) : world FS -> unit * world FS :=
  match trees with
  | [] => ret tt
  | fs :: later =>
      bind (set_tree fs) (fun _ =>
      bind (setup_py find_packages) (fun _ =>
      evaluations find_packages later))
  end.

(** ** How the packaging tool reads the strings

    The manifest only hands strings over.  What a version string, a
    classifier or a requirement means is fixed by the packaging tool, so
    the readers below are the tool's side of the contract: the dotted
    version format, the trove classifier prefixes, and the
    [name specifiers ; marker] form of a requirement. *)

Definition is_digit (c : ascii) : bool :=
  let n := nat_of_ascii c in ((48 <=? n) && (n <=? 57))%nat.

Definition is_letter (c : ascii) : bool :=
  let n := nat_of_ascii c in
  (((65 <=? n) && (n <=? 90)) || ((97 <=? n) && (n <=? 122)))%nat.

Fixpoint all_chars (p : ascii -> bool) (s : string) : bool :=
  match s with
  | EmptyString => true
  | String c rest => p c && all_chars p rest
  end.

(** A non-empty run of decimal digits. *)
Definition is_decimal (s : string) : bool :=
  match s with
  | EmptyString => false
  | String _ _ => all_chars is_digit s
  end.

(** Python's [s.split(sep)] for a one-character separator. *)
Fixpoint split_on (sep : ascii) (s : string) : list string :=
  match s with
  | EmptyString => [EmptyString]
  | String c rest =>
      if Ascii.eqb c sep then EmptyString :: split_on sep rest
      else match split_on sep rest with
           | [] => [String c EmptyString]
           | w :: ws => String c w :: ws
           end
  end.

(** Python's [sep.join(parts)]. *)
Fixpoint join (sep : ascii) (parts : list string) : string :=
  match parts with
  | [] => EmptyString
  | [w] => w
  | w :: rest => (w ++ String sep (join sep rest))%string
  end.

(** The version-string format as a checker: major.minor.patch. *)
Definition is_version_string (s : string) : bool :=
  match split_on "." s with
  | [major; minor; patch] =>
      is_decimal major && is_decimal minor && is_decimal patch
  | _ => false
  end.

(** The same format stated directly on the text. *)
Definition version_format (s : string) : Prop :=
  exists major minor patch,
    s = (major ++ "." ++ minor ++ "." ++ patch)%string /\
    is_decimal major = true /\
    is_decimal minor = true /\
    is_decimal patch = true.

Fixpoint strip_prefix (p s : string) : option string :=
  match p, s with
  | EmptyString, _ => Some s
  | String a p', String b s' =>
      if Ascii.eqb a b then strip_prefix p' s' else None
  | String _ _, EmptyString => None
  end.

(** A dotted run of decimal numbers, such as 3 or 3.10. *)
Definition is_dotted_number (s : string) : bool :=
  forallb is_decimal (split_on "." s).

Inductive classifier_kind : Type :=
| LicenseTag (license : string)
| PythonVersionTag (version : string)
| OtherTag.

Definition classify (c : string) : classifier_kind :=
  match strip_prefix "License :: " c with
  | Some license => LicenseTag license
  | None =>
      match strip_prefix "Programming Language :: Python :: " c with
      | Some v => if is_dotted_number v then PythonVersionTag v else OtherTag
      | None => OtherTag
      end
  end.

(** The keywords of [setup] that declare dependencies. *)
Definition dependency_keywords : list string :=
  [ "install_requires"; "setup_requires"; "tests_require";
    "extras_require"; "requires" ].

Definition listed {A : Type} (kw : kwargs A) (k : string) : bool :=
  existsb (String.eqb k) (kw_names kw).

(** The keywords of [setup] that install executables. *)
Definition executable_keywords : list string :=
  [ "scripts"; "entry_points" ].

(** The keywords of the call whose argument is written out as a string or
    a list display; [packages] is the one that is not. *)
Definition literal_fields : list string :=
  [ "name"; "version"; "description"; "author";
    "scripts"; "install_requires"; "classifiers" ].

(** *** Requirements *)

Definition is_name_char (c : ascii) : bool :=
  is_letter c || is_digit c ||
  Ascii.eqb c "-" || Ascii.eqb c "_" || Ascii.eqb c ".".

(** The longest prefix whose characters satisfy [p], and what follows. *)
Fixpoint span (p : ascii -> bool) (s : string) : string * string :=
  match s with
  | EmptyString => (EmptyString, EmptyString)
  | String c rest =>
      if p c then let (a, b) := span p rest in (String c a, b)
      else (EmptyString, s)
  end.

(** The text before the first [sep], and the text after it if there is one. *)
Fixpoint break_at (sep : ascii) (s : string) : string * option string :=
  match s with
  | EmptyString => (EmptyString, None)
  | String c rest =>
      if Ascii.eqb c sep then (EmptyString, Some rest)
      else let (a, b) := break_at sep rest in (String c a, b)
  end.

Definition is_blank (s : string) : bool :=
  all_chars (fun c => Ascii.eqb c " ") s.

Record requirement : Type := mkRequirement {
  req_name : string;
  req_specifiers : list string;
  req_marker : option string
}.

(** A requirement is a distribution name, then comma-separated version
    specifiers, then an optional environment marker after a semicolon. *)
Definition parse_requirement (s : string) : requirement :=
  let (head, marker) := break_at ";" s in
  let (name, rest) := span is_name_char head in
  mkRequirement name
    (if is_blank rest then [] else split_on "," rest)
    marker.

Section Specifiers.

(** Released versions, and the packaging tool's test of one version
    specifier (such as [>=16] or [==3.9.*]) against a version. *)
Variable release : Type.
Variable specifier_allows : string -> release -> bool.

(** A version satisfies a requirement when every specifier allows it. *)
Definition satisfies (v : release) (r : requirement) : bool :=
  forallb (fun spec => specifier_allows spec v) (req_specifiers r).

(** The interpreter restriction of a distribution is its
    [python_requires] keyword and nothing else. *)
Definition requires_python (kw : kwargs value) : option string :=
  match kw_get "python_requires" kw with
  | Some (VStr spec) => Some spec
  | _ => None
  end.

Definition installable_on (kw : kwargs value) (py : release) : bool :=
  match requires_python kw with
  | Some spec => forallb (fun c => specifier_allows c py) (split_on "," spec)
  | None => true
  end.

End Specifiers.

Arguments satisfies {release}.
Arguments installable_on {release}.

(** ** The run of the module *)

Section Run.

Context {FS : Type} (find_packages : FS -> list string).

Lemma nth_error_fresh (h : heap) (o : list string) (rest : heap) (k : nat) :
  nth_error (h ++ o :: rest) (length h + k) = nth_error (o :: rest) k.
Proof.
  rewrite nth_error_app2 by lia.
  replace (length h + k - length h) with k by lia.
  reflexivity.
Qed.

Lemma run_unfold (fs : FS) (h0 : heap) :
  run find_packages fs h0 =
  mkWorld fs
    (h0 ++ [ find_packages fs;
             ["scripts/vgpu-name.sh"];
             ["frida"];
             [ "License :: OSI Approved :: MIT License";
               "Programming Language :: Python :: 3";
               "Programming Language :: Python :: 3.9";
               "Programming Language :: Python :: 3.10";
               "Programming Language :: Python :: 3.11" ] ])
    [ [ ("name", RStr "vgpu_unlock");
        ("version", RStr "1.0.0");
        ("description", RStr "vGPU unlock script for consumer GPUs");
        ("author", RStr "D");
        ("packages", RList (length h0 + 0));
        ("scripts", RList (length h0 + 1));
        ("install_requires", RList (length h0 + 2));
        ("classifiers", RList (length h0 + 3)) ] ].
Proof.
  unfold run, setup_py, setup_args, bind, call_find_packages, new_list,
    setup, ret, start.
  cbn [snd fst tree objects setup_calls app].
  repeat rewrite length_app.
  cbn [length].
  repeat rewrite <- app_assoc.
  cbn [app].
  repeat rewrite <- Nat.add_assoc.
  cbn [Nat.add].
  rewrite Nat.add_0_r.
  reflexivity.
Qed.

Lemma received_run (fs : FS) (h0 : heap) :
  received find_packages fs h0 = [Some (setup_kwargs find_packages fs)].
Proof.
  unfold received, received_in.
  rewrite run_unfold.
  cbn [objects setup_calls map read_kwargs deref].
  rewrite !nth_error_fresh.
  reflexivity.
Qed.

End Run.

(** ** Nothing that exists is overwritten *)

Section Frame.

Context {FS : Type} (find_packages : FS -> list string).

Lemma preserves_ret {A : Type} (a : A) :
  preserves_objects (@ret FS A a).
Proof. intros w n o H. exact H. Qed.

Lemma preserves_bind {A B : Type} (m : world FS -> A * world FS)
    (f : A -> world FS -> B * world FS) :
  preserves_objects m ->
  (forall a, preserves_objects (f a)) ->
  preserves_objects (bind m f).
Proof.
  intros Hm Hf w n o H.
  unfold bind.
  specialize (Hm w n o H).
  destruct (m w) as [a w'] eqn:E.
  apply Hf. exact Hm.
Qed.

Lemma preserves_new_list (items : list string) :
  preserves_objects (@new_list FS items).
Proof.
  intros w n o H. cbn.
  rewrite nth_error_app1; [exact H |].
  apply nth_error_Some. congruence.
Qed.

Lemma preserves_call_find_packages :
  preserves_objects (call_find_packages find_packages).
Proof.
  intros w n o H. unfold call_find_packages.
  apply (preserves_new_list (find_packages (tree w))). exact H.
Qed.

Lemma preserves_setup (kw : kwargs pyref) :
  preserves_objects (@setup FS kw).
Proof. intros w n o H. exact H. Qed.

Create HintDb frame.
#[local] Hint Resolve preserves_ret preserves_new_list
  preserves_call_find_packages preserves_setup : frame.

Ltac frame_steps :=
  repeat (apply preserves_bind; [auto with frame | intro]);
  auto with frame.

Lemma preserves_setup_args :
  preserves_objects (setup_args find_packages).
Proof. unfold setup_args. frame_steps. Qed.

Lemma preserves_setup_py :
  preserves_objects (setup_py find_packages).
Proof.
  unfold setup_py. apply preserves_bind.
  - apply preserves_setup_args.
  - intro kw. apply preserves_setup.
Qed.

(** The arguments as built right before the call. *)
Lemma at_call_unfold (fs : FS) (h0 : heap) :
  setup_calls (at_call find_packages fs h0) = [] /\
  objects (at_call find_packages fs h0) =
    objects (run find_packages fs h0) /\
  setup_calls (run find_packages fs h0) =
    [fst (setup_args find_packages (start fs h0))].
Proof.
  unfold at_call, run, setup_py, bind.
  destruct (setup_args find_packages (start fs h0)) as [kw w] eqn:E.
  assert (Hc : setup_calls w = []).
  { unfold setup_args, bind, call_find_packages, new_list, ret, start in E.
    cbn in E. inversion E. reflexivity. }
  cbn. rewrite Hc. repeat split.
Qed.

End Frame.

(** ** Splitting and joining *)

Lemma split_on_cons (sep : ascii) (s : string) :
  exists w ws, split_on sep s = w :: ws.
Proof.
  destruct s as [| c rest]; cbn.
  - eauto.
  - destruct (Ascii.eqb c sep); [eauto |].
    destruct (split_on sep rest); eauto.
Qed.

Lemma join_cons (sep : ascii) (c : ascii) (w : string) (ws : list string) :
  join sep (String c w :: ws) = String c (join sep (w :: ws)).
Proof. destruct ws; reflexivity. Qed.

Lemma join_split_on (sep : ascii) (s : string) :
  join sep (split_on sep s) = s.
Proof.
  induction s as [| c rest IH]; cbn; [reflexivity |].
  destruct (Ascii.eqb c sep) eqn:E.
  - apply Ascii.eqb_eq in E. subst c.
    destruct (split_on_cons sep rest) as (w & ws & Hw).
    rewrite Hw in *.
    change (join sep (EmptyString :: w :: ws))
      with (String sep (join sep (w :: ws))).
    now rewrite IH.
  - destruct (split_on_cons sep rest) as (w & ws & Hw).
    rewrite Hw in *. rewrite join_cons. now rewrite IH.
Qed.

Lemma all_chars_no_sep (p : ascii -> bool) (sep : ascii) (s rest : string) :
  p sep = false ->
  all_chars p s = true ->
  split_on sep (s ++ String sep rest) = s :: split_on sep rest.
Proof.
  intros Hsep. induction s as [| c s IH]; cbn; intros Hs.
  - now rewrite Ascii.eqb_refl.
  - apply andb_true_iff in Hs as [Hc Hs].
    destruct (Ascii.eqb c sep) eqn:E.
    + apply Ascii.eqb_eq in E. congruence.
    + now rewrite (IH Hs).
Qed.

Lemma all_chars_split_on (p : ascii -> bool) (sep : ascii) (s : string) :
  p sep = false ->
  all_chars p s = true ->
  split_on sep s = [s].
Proof.
  intros Hsep. induction s as [| c s IH]; cbn; intros Hs; [reflexivity |].
  apply andb_true_iff in Hs as [Hc Hs].
  destruct (Ascii.eqb c sep) eqn:E.
  - apply Ascii.eqb_eq in E. congruence.
  - now rewrite (IH Hs).
Qed.

Lemma is_decimal_all_digits (s : string) :
  is_decimal s = true -> all_chars is_digit s = true.
Proof. destruct s; [discriminate | trivial]. Qed.

(** The checker decides the format. *)
Lemma is_version_string_spec (s : string) :
  is_version_string s = true <-> version_format s.
Proof.
  split.
  - unfold is_version_string. intros H.
    pose proof (join_split_on "." s) as J.
    destruct (split_on "." s) as [| a [| b [| c [| d l]]]]; try discriminate.
    apply andb_true_iff in H as [H Hc].
    apply andb_true_iff in H as [Ha Hb].
    exists a, b, c. cbn in J. now subst s.
  - intros (a & b & c & -> & Ha & Hb & Hc).
    unfold is_version_string. cbn [append].
    rewrite (all_chars_no_sep is_digit) by
      (try reflexivity; now apply is_decimal_all_digits).
    rewrite (all_chars_no_sep is_digit) by
      (try reflexivity; now apply is_decimal_all_digits).
    rewrite (all_chars_split_on is_digit) by
      (try reflexivity; now apply is_decimal_all_digits).
    now rewrite Ha, Hb, Hc.
Qed.

(** ** The readers on sample texts *)

Example version_three_parts : is_version_string "2.14.7" = true.
Proof. reflexivity. Qed.

Example version_two_parts : is_version_string "1.0" = false.
Proof. reflexivity. Qed.

Example version_empty_part : is_version_string "1..0" = false.
Proof. reflexivity. Qed.

Example version_letter_part : is_version_string "1.0.b" = false.
Proof. reflexivity. Qed.

Example classify_topic :
  classify "Topic :: System :: Hardware" = OtherTag.
Proof. reflexivity. Qed.

Example classify_implementation :
  classify "Programming Language :: Python :: Implementation :: CPython"
  = OtherTag.
Proof. reflexivity. Qed.

Example requirement_pinned :
  parse_requirement "frida==16.0.2" =
  mkRequirement "frida" ["==16.0.2"] None.
Proof. reflexivity. Qed.

Example requirement_bounded_with_marker :
  parse_requirement "frida>=15,<17;python_version<'3.12'" =
  mkRequirement "frida" [">=15"; "<17"] (Some "python_version<'3.12'").
Proof. reflexivity. Qed.

(** ** The manifest's fields *)

Section Fields.

Context {FS : Type} (find_packages : FS -> list string).

(** C1: the one call of [setup] receives name 'vgpu_unlock', version
    '1.0.0', description 'vGPU unlock script for consumer GPUs' and
    author 'D'. *)
Theorem setup_receives_metadata (fs : FS) (h0 : heap) :
  exists kw,
    received find_packages fs h0 = [Some kw] /\
    kw_get "name" kw = Some (VStr "vgpu_unlock") /\
    kw_get "version" kw = Some (VStr "1.0.0") /\
    kw_get "description" kw
      = Some (VStr "vGPU unlock script for consumer GPUs") /\
    kw_get "author" kw = Some (VStr "D").
Proof.
  exists (setup_kwargs find_packages fs).
  rewrite received_run. repeat split.
Qed.

(** C2: [install_requires] is the one-element list ['frida'], and of the
    keywords that declare dependencies it is the only one passed. *)
Theorem install_requires_is_frida (fs : FS) (h0 : heap) :
  exists kw,
    received find_packages fs h0 = [Some kw] /\
    kw_get "install_requires" kw = Some (VList ["frida"]) /\
    filter (listed kw) dependency_keywords = ["install_requires"].
Proof.
  exists (setup_kwargs find_packages fs).
  rewrite received_run. repeat split.
Qed.

(** C3: [scripts] is the one-element list ['scripts/vgpu-name.sh'], and of
    the keywords that install executables it is the only one passed, so
    one executable is registered. *)
Theorem scripts_is_vgpu_name (fs : FS) (h0 : heap) :
  exists kw,
    received find_packages fs h0 = [Some kw] /\
    kw_get "scripts" kw = Some (VList ["scripts/vgpu-name.sh"]) /\
    filter (listed kw) executable_keywords = ["scripts"].
Proof.
  exists (setup_kwargs find_packages fs).
  rewrite received_run. repeat split.
Qed.

(** C4: the version passed to [setup] has the version-string format: three
    non-empty decimal components separated by dots, here 1, 0 and 0. *)
Theorem version_is_well_formed (fs : FS) (h0 : heap) :
  exists kw v,
    received find_packages fs h0 = [Some kw] /\
    kw_get "version" kw = Some (VStr v) /\
    version_format v /\
    is_version_string v = true /\
    split_on "." v = ["1"; "0"; "0"].
Proof.
  exists (setup_kwargs find_packages fs), "1.0.0".
  rewrite received_run. repeat split.
  apply is_version_string_spec. reflexivity.
Qed.

(** C5: the classifiers are one license tag, the MIT license, followed by
    the Python version tags 3, 3.9, 3.10 and 3.11, and no tag of another
    kind. *)
Theorem classifiers_are_license_and_versions (fs : FS) (h0 : heap) :
  exists kw cs,
    received find_packages fs h0 = [Some kw] /\
    kw_get "classifiers" kw = Some (VList cs) /\
    cs = [ "License :: OSI Approved :: MIT License";
           "Programming Language :: Python :: 3";
           "Programming Language :: Python :: 3.9";
           "Programming Language :: Python :: 3.10";
           "Programming Language :: Python :: 3.11" ] /\
    map classify cs =
      [ LicenseTag "OSI Approved :: MIT License";
        PythonVersionTag "3";
        PythonVersionTag "3.9";
        PythonVersionTag "3.10";
        PythonVersionTag "3.11" ].
Proof.
  exists (setup_kwargs find_packages fs).
  eexists. rewrite received_run. repeat split.
Qed.

End Fields.

(** ** Discovery, determinism and the installer's view *)

(** C6: [packages] is not written out; it is whatever the discovery routine
    returns for the project tree when the manifest is evaluated, and so no
    fixed list is the [packages] argument of every evaluation. *)
Theorem packages_are_discovered :
  (forall (FS : Type) (find_packages : FS -> list string) (fs : FS)
          (h0 : heap),
      exists kw,
        received find_packages fs h0 = [Some kw] /\
        kw_get "packages" kw = Some (VList (find_packages fs))) /\
  (forall literal : list string,
      exists (FS : Type) (find_packages : FS -> list string) (fs : FS)
             (h0 : heap) (kw : kwargs value) (found : list string),
        received find_packages fs h0 = [Some kw] /\
        kw_get "packages" kw = Some (VList found) /\
        found <> literal).
Proof.
  split.
  - intros FS find_packages fs h0.
    exists (setup_kwargs find_packages fs).
    rewrite received_run. split; reflexivity.
  - intros literal.
    exists (list string), (fun t => t), ("vgpu_unlock" :: literal), [].
    eexists. eexists. rewrite received_run.
    split; [reflexivity |]. split; [reflexivity |].
    intros H. apply (f_equal (@length string)) in H.
    cbn in H. lia.
Qed.

(** C7: two evaluations of the module, on any two trees with any discovery
    routines and any stores, pass the same constants for name, version,
    description, author, scripts, install_requires and classifiers; and an
    evaluation overwrites no object: what the arguments hold when they have
    just been built is what the call is recorded with when the module
    ends. *)
Theorem literal_fields_are_constant
    {FS1 : Type} (find_packages1 : FS1 -> list string) (fs1 : FS1)
    (h1 : heap)
    {FS2 : Type} (find_packages2 : FS2 -> list string) (fs2 : FS2)
    (h2 : heap) :
  exists kw1 kw2,
    received find_packages1 fs1 h1 = [Some kw1] /\
    received find_packages2 fs2 h2 = [Some kw2] /\
    map (fun k => kw_get k kw1) literal_fields
      = map (fun k => kw_get k kw2) literal_fields /\
    map (fun k => kw_get k kw1) literal_fields
      = [ Some (VStr "vgpu_unlock");
          Some (VStr "1.0.0");
          Some (VStr "vGPU unlock script for consumer GPUs");
          Some (VStr "D");
          Some (VList ["scripts/vgpu-name.sh"]);
          Some (VList ["frida"]);
          Some (VList [ "License :: OSI Approved :: MIT License";
                        "Programming Language :: Python :: 3";
                        "Programming Language :: Python :: 3.9";
                        "Programming Language :: Python :: 3.10";
                        "Programming Language :: Python :: 3.11" ]) ] /\
    preserves_objects (setup_py find_packages1) /\
    preserves_objects (setup_py find_packages2) /\
    received_in (at_call find_packages1 fs1 h1) = [] /\
    read_kwargs (objects (at_call find_packages1 fs1 h1))
      (fst (setup_args find_packages1 (start fs1 h1))) = Some kw1 /\
    read_kwargs (objects (at_call find_packages2 fs2 h2))
      (fst (setup_args find_packages2 (start fs2 h2))) = Some kw2.
Proof.
  exists (setup_kwargs find_packages1 fs1), (setup_kwargs find_packages2 fs2).
  pose proof (received_run find_packages1 fs1 h1) as R1.
  pose proof (received_run find_packages2 fs2 h2) as R2.
  destruct (at_call_unfold find_packages1 fs1 h1) as (Hc1 & O1 & S1).
  destruct (at_call_unfold find_packages2 fs2 h2) as (Hc2 & O2 & S2).
  repeat match goal with |- _ /\ _ => split end;
    try assumption; try reflexivity;
    try apply preserves_setup_py.
  - unfold received, received_in in R1. rewrite S1 in R1.
    rewrite O1. cbn [map] in R1. congruence.
  - unfold received, received_in in R2. rewrite S2 in R2.
    rewrite O2. cbn [map] in R2. congruence.
Qed.

Section Installer.

Context {FS : Type} (find_packages : FS -> list string).
Context {release : Type} (specifier_allows : string -> release -> bool).

(** C9: the one requirement is the bare name 'frida', with no version
    specifier and no marker, so every version satisfies it. *)
Theorem frida_is_unconstrained (fs : FS) (h0 : heap) :
  exists kw dep,
    received find_packages fs h0 = [Some kw] /\
    kw_get "install_requires" kw = Some (VList [dep]) /\
    parse_requirement dep = mkRequirement "frida" [] None /\
    forall v : release,
      satisfies specifier_allows v (parse_requirement dep) = true.
Proof.
  exists (setup_kwargs find_packages fs), "frida".
  rewrite received_run. repeat split.
Qed.

(** C10: [setup] is called with the eight keywords name, version,
    description, author, packages, scripts, install_requires and
    classifiers, and no other; [python_requires] is not among them, so
    the distribution is installable on every Python version. *)
Theorem setup_receives_eight_keywords (fs : FS) (h0 : heap) :
  exists kw,
    received find_packages fs h0 = [Some kw] /\
    kw_names kw =
      [ "name"; "version"; "description"; "author";
        "packages"; "scripts"; "install_requires"; "classifiers" ] /\
    kw_get "python_requires" kw = None /\
    forall py : release, installable_on specifier_allows kw py = true.
Proof.
  exists (setup_kwargs find_packages fs).
  rewrite received_run. repeat split.
Qed.

End Installer.

(** ** The module in an arbitrary interpreter state *)

Section Step.

Context {FS : Type} (find_packages : FS -> list string).

(** One evaluation from any state, written out. *)
Lemma setup_py_step (w : world FS) :
  snd (setup_py find_packages w) =
  mkWorld (tree w)
    (objects w ++
       [ find_packages (tree w);
         ["scripts/vgpu-name.sh"];
         ["frida"];
         [ "License :: OSI Approved :: MIT License";
           "Programming Language :: Python :: 3";
           "Programming Language :: Python :: 3.9";
           "Programming Language :: Python :: 3.10";
           "Programming Language :: Python :: 3.11" ] ])
    (setup_calls w ++
       [ [ ("name", RStr "vgpu_unlock");
           ("version", RStr "1.0.0");
           ("description", RStr "vGPU unlock script for consumer GPUs");
           ("author", RStr "D");
           ("packages", RList (length (objects w) + 0));
           ("scripts", RList (length (objects w) + 1));
           ("install_requires", RList (length (objects w) + 2));
           ("classifiers", RList (length (objects w) + 3)) ] ]).
Proof.
  unfold setup_py, setup_args, bind, call_find_packages, new_list,
    setup, ret.
  cbn [snd fst tree objects setup_calls].
  repeat rewrite length_app.
  cbn [length].
  repeat rewrite <- app_assoc.
  cbn [app].
  repeat rewrite <- Nat.add_assoc.
  cbn [Nat.add].
  rewrite Nat.add_0_r.
  reflexivity.
Qed.

Lemma deref_app (h more : heap) (r : pyref) (v : value) :
  deref h r = Some v -> deref (h ++ more) r = Some v.
Proof.
  destruct r as [s | a]; cbn; [trivial |].
  destruct (nth_error h a) as [o |] eqn:E; [| discriminate].
  intros H. rewrite nth_error_app1; [now rewrite E |].
  apply nth_error_Some. congruence.
Qed.

Lemma read_kwargs_app (h more : heap) (kw : kwargs pyref) :
  forall vs, read_kwargs h kw = Some vs ->
             read_kwargs (h ++ more) kw = Some vs.
Proof.
  induction kw as [| [k r] kw IH]; cbn; intros vs H; [exact H |].
  destruct (deref h r) as [v |] eqn:D; [| discriminate].
  destruct (read_kwargs h kw) as [vs' |] eqn:R; [| discriminate].
  rewrite (deref_app h more r v D), (IH vs' eq_refl). exact H.
Qed.

Lemma map_read_kwargs_app (h more : heap) (calls : list (kwargs pyref)) :
  Forall (fun r => r <> None) (map (read_kwargs h) calls) ->
  map (read_kwargs (h ++ more)) calls = map (read_kwargs h) calls.
Proof.
  induction calls as [| kw calls IH]; cbn; intros H; [reflexivity |].
  inversion H as [| x l Hx Hl]; subst.
  rewrite (IH Hl). f_equal.
  destruct (read_kwargs h kw) as [vs |] eqn:R; [| congruence].
  now apply read_kwargs_app.
Qed.

(** What the calls read after one more evaluation. *)
Lemma received_in_step (w : world FS) :
  Forall (fun r => r <> None) (received_in w) ->
  received_in (snd (setup_py find_packages w)) =
  received_in w ++ [Some (setup_kwargs find_packages (tree w))].
Proof.
  intros H. unfold received_in in *. rewrite setup_py_step.
  cbn [objects setup_calls]. rewrite map_app.
  rewrite (map_read_kwargs_app _ _ _ H). f_equal.
  cbn [map read_kwargs deref].
  rewrite !nth_error_fresh. reflexivity.
Qed.

(** The state kept between evaluations: every recorded call is readable,
    its list arguments are allocated, and no two of them share an object. *)
Definition settled (w : world FS) : Prop :=
  Forall (fun r => r <> None) (received_in w) /\
  Forall (fun a => a < length (objects w))
    (flat_map list_addrs (setup_calls w)) /\
  NoDup (flat_map list_addrs (setup_calls w)).

Lemma settled_start (fs : FS) (h0 : heap) : settled (start fs h0).
Proof.
  unfold settled, start, received_in. cbn.
  repeat split; constructor.
Qed.

Lemma settled_set_tree (fs : FS) (w : world FS) :
  settled w -> settled (snd (set_tree fs w)).
Proof. intros H. exact H. Qed.

Lemma settled_step (w : world FS) :
  settled w -> settled (snd (setup_py find_packages w)).
Proof.
  intros (Hr & Hb & Hn). unfold settled.
  rewrite (received_in_step w Hr). rewrite setup_py_step.
  cbn [objects setup_calls]. rewrite flat_map_app.
  cbn [flat_map list_addrs snd app].
  rewrite !length_app. cbn [length].
  split; [| split].
  - apply Forall_app. split.
    + exact Hr.
    + constructor; [discriminate | constructor].
  - apply Forall_app. split.
    + eapply Forall_impl; [| exact Hb]. cbn. intros a Ha. lia.
    + repeat constructor; lia.
  - apply NoDup_app.
    + exact Hn.
    + repeat constructor; cbn; lia.
    + intros a Ha Hin.
      rewrite Forall_forall in Hb. specialize (Hb a Ha).
      cbn in Hin. lia.
Qed.

Lemma evaluations_cons (fs : FS) (later : list FS) (w : world FS) :
  evaluations find_packages (fs :: later) w =
  evaluations find_packages later
    (snd (setup_py find_packages (snd (set_tree fs w)))).
Proof.
  cbn [evaluations]. unfold bind. cbn [set_tree snd].
  now destruct (setup_py find_packages _).
Qed.

Lemma evaluations_settled (trees : list FS) :
  forall w, settled w ->
    settled (snd (evaluations find_packages trees w)) /\
    received_in (snd (evaluations find_packages trees w)) =
      received_in w
      ++ map (fun fs => Some (setup_kwargs find_packages fs)) trees /\
    length (objects (snd (evaluations find_packages trees w))) =
      length (objects w) + 4 * length trees.
Proof.
  induction trees as [| fs later IH]; intros w Hw.
  - cbn. rewrite app_nil_r. repeat split; try apply Hw. lia.
  - rewrite evaluations_cons.
    pose proof (settled_set_tree fs w Hw) as H1.
    pose proof (settled_step _ H1) as H2.
    destruct (IH _ H2) as (Hs & Hrec & Hlen).
    split; [exact Hs |]. split.
    + rewrite Hrec, (received_in_step _ (proj1 H1)).
      rewrite <- app_assoc. reflexivity.
    + rewrite Hlen, setup_py_step. cbn [objects set_tree snd].
      rewrite length_app. cbn [length map]. lia.
Qed.

End Step.

(** ** Properties of an evaluation in any state *)

Section Evaluation.

Context {FS : Type} (find_packages : FS -> list string).

(** X1: the four list arguments are four new objects, allocated in the
    order the keywords are written (packages first, then scripts,
    install_requires, classifiers) at the next free addresses; none of
    them is an object that existed before and no two of them are the same
    object. *)
Theorem list_arguments_are_fresh (w : world FS) :
  exists kw,
    setup_calls (snd (setup_py find_packages w)) = setup_calls w ++ [kw] /\
    map (fun k => kw_get k kw)
        ["packages"; "scripts"; "install_requires"; "classifiers"] =
      [ Some (RList (length (objects w) + 0));
        Some (RList (length (objects w) + 1));
        Some (RList (length (objects w) + 2));
        Some (RList (length (objects w) + 3)) ] /\
    Forall (fun a => nth_error (objects w) a = None) (list_addrs kw) /\
    NoDup (list_addrs kw).
Proof.
  rewrite setup_py_step. cbn [setup_calls]. eexists.
  split; [reflexivity |]. split; [reflexivity |].
  cbn [list_addrs flat_map snd app]. split.
  - repeat constructor; apply nth_error_None; lia.
  - repeat constructor; cbn; lia.
Qed.


(** X3: when the module is evaluated several times in one interpreter,
    once per tree of a list, the recorded calls read, in order, as the
    manifest's arguments for each tree: a later evaluation changes nothing
    an earlier call received.  No list object is shared between or
    within the calls, and the store grows by four objects per
    evaluation. *)
Theorem evaluations_do_not_interfere (trees : list FS) (fs0 : FS)
    (h0 : heap) :
  received_in (snd (evaluations find_packages trees (start fs0 h0)))
    = map (fun fs => Some (setup_kwargs find_packages fs)) trees /\
  NoDup (flat_map list_addrs
           (setup_calls
              (snd (evaluations find_packages trees (start fs0 h0))))) /\
  length (objects (snd (evaluations find_packages trees (start fs0 h0))))
    = length h0 + 4 * length trees.
Proof.
  destruct (evaluations_settled find_packages trees (start fs0 h0)
              (settled_start fs0 h0)) as ((_ & _ & Hn) & Hrec & Hlen).
  repeat split; assumption.
Qed.

(** X4: two evaluations, on any two trees and in any two stores, pass the
    same arguments to [setup] exactly when discovery finds the same
    packages in both trees: the tree matters only through the discovery
    result, and the store not at all. *)
Theorem same_arguments_iff_same_packages (fs1 fs2 : FS) (h1 h2 : heap) :
  received find_packages fs1 h1 = received find_packages fs2 h2
  <-> find_packages fs1 = find_packages fs2.
Proof.
  rewrite !received_run. split.
  - intros H. unfold setup_kwargs in H. now inversion H.
  - intros H. unfold setup_kwargs. now rewrite H.
Qed.

(** X5: when discovery finds no package, [setup] is still called once,
    with an empty [packages] list and every other argument as written:
    the manifest has no guard for an empty package set. *)
Theorem no_package_found (fs : FS) (h0 : heap) :
  find_packages fs = [] ->
  received find_packages fs h0 =
    [ Some [ ("name", VStr "vgpu_unlock");
             ("version", VStr "1.0.0");
             ("description", VStr "vGPU unlock script for consumer GPUs");
             ("author", VStr "D");
             ("packages", VList []);
             ("scripts", VList ["scripts/vgpu-name.sh"]);
             ("install_requires", VList ["frida"]);
             ("classifiers",
              VList [ "License :: OSI Approved :: MIT License";
                      "Programming Language :: Python :: 3";
                      "Programming Language :: Python :: 3.9";
                      "Programming Language :: Python :: 3.10";
                      "Programming Language :: Python :: 3.11" ]) ] ].
Proof.
  intros H. rewrite received_run. unfold setup_kwargs. now rewrite H.
Qed.

End Evaluation.

(** A tree given by the packages in it, here none. *)
Lemma no_package_found_witness :
  (fun t : list string => t) [] = [] /\
  received (fun t : list string => t) [] [["kept"]] =
    [ Some [ ("name", VStr "vgpu_unlock");
             ("version", VStr "1.0.0");
             ("description", VStr "vGPU unlock script for consumer GPUs");
             ("author", VStr "D");
             ("packages", VList []);
             ("scripts", VList ["scripts/vgpu-name.sh"]);
             ("install_requires", VList ["frida"]);
             ("classifiers",
              VList [ "License :: OSI Approved :: MIT License";
                      "Programming Language :: Python :: 3";
                      "Programming Language :: Python :: 3.9";
                      "Programming Language :: Python :: 3.10";
                      "Programming Language :: Python :: 3.11" ]) ] ].
Proof.
  split; [reflexivity |].
  apply (no_package_found (fun t : list string => t) [] [["kept"]]).
  reflexivity.
Defined.
